(** * Lab9_Part2.1.ipynb: credential resolver and completion requester

    A shallow embedding of the two functions of the notebook,
    [get_secret] (cell 5) and [openai_gpt_help] (cell 12), of the client
    initialisation cell (cell 6) and of the import cell (cell 4), in a
    state-and-exception monad over the notebook's run-time world.

    The world records what the notebook can observe or cause:
    - the global namespace of the kernel (which names the cells have bound);
    - the objects handed to [pprint], in order;
    - the requests sent to the secret store and to the completion endpoint.

    Two global names are resolved at run time, in the world's [globals]:
    [client], which cell 6 binds, and [ClientError], which the [except]
    clause of [get_secret] names and no cell binds. The names that the
    import cell binds and that the functions use on every path ([boto3],
    [json], [pprint]) are taken as resolved.

    The third-party services ([secretsmanager.get_secret_value],
    [json.loads], [chat.completions.create]) are not code of the notebook:
    they are taken as a record of functions, [Services], so that every
    statement holds for every behaviour of those services (a stub is one
    such behaviour). The two network services see the log of earlier
    requests, so they may answer differently from call to call. *)

From Stdlib Require Import Ascii String ZArith List.
From stdpp Require Import gmap strings list pretty.

Set Warnings "-register-all".
Local Open Scope string_scope.
Local Open Scope Z_scope.

(** ** Python values

    The values that [json.loads] builds and that the request carries. *)

Inductive pyval : Type :=
| PNone
| PBool (b : bool)
| PInt (z : Z)
| PStr (s : string)
| PList (l : list pyval)
| PDict (d : gmap string pyval).

(** ** Exceptions *)

(** The exception classes that the notebook can meet: Python's built-in ones,
    [json]'s, botocore's and openai's roots. *)
Inductive pyclass : Type :=
| BaseException
| Exception
| LookupError
| KeyError
| IndexError
| NameError
| TypeError
| AttributeError
| ValueError
| JSONDecodeError
| BotoCoreError
| ClientError
| OpenAIError
| APIError.

#[global] Instance pyclass_eq_dec : EqDecision pyclass.
Proof. solve_decision. Defined.

(** [mro c] is the class's [__mro__] (without [object]). *)
Definition mro (c : pyclass) : list pyclass :=
  match c with
  | BaseException => [BaseException]
  | Exception => [Exception; BaseException]
  | LookupError => [LookupError; Exception; BaseException]
  | KeyError => [KeyError; LookupError; Exception; BaseException]
  | IndexError => [IndexError; LookupError; Exception; BaseException]
  | NameError => [NameError; Exception; BaseException]
  | TypeError => [TypeError; Exception; BaseException]
  | AttributeError => [AttributeError; Exception; BaseException]
  | ValueError => [ValueError; Exception; BaseException]
  | JSONDecodeError => [JSONDecodeError; ValueError; Exception; BaseException]
  | BotoCoreError => [BotoCoreError; Exception; BaseException]
  | ClientError => [ClientError; Exception; BaseException]
  | OpenAIError => [OpenAIError; Exception; BaseException]
  | APIError => [APIError; OpenAIError; Exception; BaseException]
  end.

Definition issubclass (c d : pyclass) : bool := bool_decide (d ∈ mro c).

(** An exception object: its class, [args[0]] and [__context__] (the
    exception that was being handled when this one was raised). *)
Inductive exn : Type :=
  Exn { exc_class : pyclass; exc_arg : string; exc_context : option exn }.

Definition isinstance (e : exn) (c : pyclass) : bool :=
  issubclass (exc_class e) c.

(** "A lookup error": an instance of [LookupError] ([KeyError], [IndexError]). *)
Definition is_lookup_error (e : exn) : bool := isinstance e LookupError.

(** ** Objects of the two SDKs *)

(** [boto3.session.Session()] and the client it makes. *)
Record BotoSession : Type := Session { }.

Record BotoClient : Type :=
  { service_name : string; region_name : string }.

(** One [get_secret_value] request as the secret store sees it. *)
Record SecretRequest : Type :=
  { via_client : BotoClient; SecretId : string }.

(** [OpenAI(api_key=...)]. *)
Record OpenAI : Type := { api_key : pyval }.

(** One [chat.completions.create] request as the endpoint sees it. *)
Record ChatRequest : Type :=
  { via_openai : OpenAI;
    model : string;
    messages : list (gmap string pyval);
    temperature : Z }.

Record CompletionTokensDetails : Type :=
  { accepted_prediction_tokens : Z;
    ctd_audio_tokens : Z;
    reasoning_tokens : Z;
    rejected_prediction_tokens : Z }.

Record PromptTokensDetails : Type :=
  { ptd_audio_tokens : Z; cached_tokens : Z }.

Record CompletionUsage : Type :=
  { completion_tokens : Z;
    prompt_tokens : Z;
    total_tokens : Z;
    completion_tokens_details : option CompletionTokensDetails;
    prompt_tokens_details : option PromptTokensDetails }.

(** [content] is [Optional[str]] in the SDK. *)
Record ChatCompletionMessage : Type := { content : option string }.

Record Choice : Type := { message : ChatCompletionMessage }.

(** [usage] is [Optional[CompletionUsage]] in the SDK. *)
Record ChatCompletion : Type :=
  { choices : list Choice; usage : option CompletionUsage }.

(** ** The world *)

(** What a global name can be bound to: a module, a function or a class
    that is no exception, an exception class, the OpenAI client, a value. *)
Inductive pyobj : Type :=
| ObjModule (name : string)
| ObjCallable (name : string)
| ObjClass (c : pyclass)
| ObjClient (h : OpenAI)
| ObjVal (v : pyval).

Record World : Type :=
  { globals : gmap string pyobj;
    stdout : list string;
    secret_log : list SecretRequest;
    chat_log : list ChatRequest }.

Definition empty_world : World :=
  {| globals := ∅; stdout := []; secret_log := []; chat_log := [] |}.

(** The exception classes of Python's [builtins] module. *)
Definition builtins : gmap string pyobj :=
  list_to_map
    [ ("BaseException", ObjClass BaseException);
      ("Exception", ObjClass Exception);
      ("LookupError", ObjClass LookupError);
      ("KeyError", ObjClass KeyError);
      ("IndexError", ObjClass IndexError);
      ("NameError", ObjClass NameError);
      ("TypeError", ObjClass TypeError);
      ("AttributeError", ObjClass AttributeError);
      ("ValueError", ObjClass ValueError) ].

(** Name resolution at module level and inside a function for a name that
    is not local: globals first, then builtins. *)
Definition lookup_name (g : gmap string pyobj) (x : string) : option pyobj :=
  match g !! x with
  | Some o => Some o
  | None => builtins !! x
  end.

(** ** The monad *)

Inductive outcome (A : Type) : Type :=
| Return (a : A)
| Raise (e : exn).
Arguments Return {A} a.
Arguments Raise {A} e.

Definition M (A : Type) : Type := World → outcome A * World.

Definition ret {A} (a : A) : M A := fun w => (Return a, w).

Definition raise {A} (e : exn) : M A := fun w => (Raise e, w).

Definition bind {A B} (m : M A) (k : A → M B) : M B :=
  fun w =>
    match m w with
    | (Return a, w') => k a w'
    | (Raise e, w') => (Raise e, w')
    end.

Notation "x <- m ;; k" := (bind m (fun x => k))
  (at level 100, m at next level, right associativity).
Notation "m ;;; k" := (bind m (fun _ => k))
  (at level 100, right associativity).

Definition lift {A} (o : outcome A) : M A := fun w => (o, w).

(** [try: body / except cls_name as e: handler e].

    Python evaluates the expression of an [except] clause only when an
    exception reaches the clause. A name that resolves to nothing raises
    [NameError] there, with the exception being handled as its context; a
    name bound to something that is not an exception class raises
    [TypeError]; a class that the exception is not an instance of lets the
    exception through. *)
Definition try_except {A} (body : M A) (cls_name : string)
    (handler : exn → M A) : M A :=
  fun w =>
    match body w with
    | (Return a, w') => (Return a, w')
    | (Raise e, w') =>
        match lookup_name (globals w') cls_name with
        | None =>
            (Raise (Exn NameError ("name '" +:+ cls_name +:+ "' is not defined")
                      (Some e)), w')
        | Some (ObjClass c) =>
            if isinstance e c then handler e w' else (Raise e, w')
        | Some _ =>
            (Raise (Exn TypeError
                      "catching classes that do not inherit from BaseException is not allowed"
                      (Some e)), w')
        end
    end.

(** [d[k]] on a dict. *)
Definition dict_getitem (d : gmap string pyval) (k : string) : M pyval :=
  match d !! k with
  | Some v => ret v
  | None => raise (Exn KeyError k None)
  end.

(** [v[k]] with a string subscript, on any value. *)
Definition getitem (v : pyval) (k : string) : M pyval :=
  match v with
  | PDict d => dict_getitem d k
  | PList _ => raise (Exn TypeError "list indices must be integers or slices, not str" None)
  | PStr _ => raise (Exn TypeError "string indices must be integers, not 'str'" None)
  | PNone => raise (Exn TypeError "'NoneType' object is not subscriptable" None)
  | PBool _ => raise (Exn TypeError "'bool' object is not subscriptable" None)
  | PInt _ => raise (Exn TypeError "'int' object is not subscriptable" None)
  end.

(** [l[i]] on a list, for an index [0 <= i]. *)
Definition list_getitem {A} (l : list A) (i : nat) : M A :=
  match l !! i with
  | Some x => ret x
  | None => raise (Exn IndexError "list index out of range" None)
  end.

Definition set_global (x : string) (o : pyobj) : M unit :=
  fun w =>
    (Return tt,
     {| globals := <[x := o]> (globals w);
        stdout := stdout w;
        secret_log := secret_log w;
        chat_log := chat_log w |}).

(** [pprint(s)]: the string reaches the notebook's output. (How [pprint]
    quotes and wraps it at 80 columns is layout, and is not modelled.) *)
Definition pprint (s : string) : M unit :=
  fun w =>
    (Return tt,
     {| globals := globals w;
        stdout := stdout w ++ [s];
        secret_log := secret_log w;
        chat_log := chat_log w |}).

(** ** The services behind the SDKs *)

Record Services : Type :=
  { (** AWS Secrets Manager: earlier requests, this request, its answer. *)
    secretsmanager : list SecretRequest → SecretRequest → outcome (gmap string pyval);
    (** [json.loads] on a [str]. *)
    json_loads : string → outcome pyval;
    (** The completion endpoint: earlier requests, this request, its answer. *)
    completions : list ChatRequest → ChatRequest → outcome ChatCompletion }.

(** [str(x)] for the SDK's usage objects, as an f-string renders them. The
    format is the one of the notebook's recorded output (cell 13). *)
Definition str_CompletionTokensDetails (d : CompletionTokensDetails) : string :=
  "CompletionTokensDetails(accepted_prediction_tokens=" +:+ pretty (accepted_prediction_tokens d)
  +:+ ", audio_tokens=" +:+ pretty (ctd_audio_tokens d)
  +:+ ", reasoning_tokens=" +:+ pretty (reasoning_tokens d)
  +:+ ", rejected_prediction_tokens=" +:+ pretty (rejected_prediction_tokens d)
  +:+ ")".

Definition str_PromptTokensDetails (d : PromptTokensDetails) : string :=
  "PromptTokensDetails(audio_tokens=" +:+ pretty (ptd_audio_tokens d)
  +:+ ", cached_tokens=" +:+ pretty (cached_tokens d)
  +:+ ")".

Definition str_option {A} (f : A → string) (o : option A) : string :=
  match o with
  | Some x => f x
  | None => "None"
  end.

Definition str_CompletionUsage (u : CompletionUsage) : string :=
  "CompletionUsage(completion_tokens=" +:+ pretty (completion_tokens u)
  +:+ ", prompt_tokens=" +:+ pretty (prompt_tokens u)
  +:+ ", total_tokens=" +:+ pretty (total_tokens u)
  +:+ ", completion_tokens_details="
  +:+ str_option str_CompletionTokensDetails (completion_tokens_details u)
  +:+ ", prompt_tokens_details="
  +:+ str_option str_PromptTokensDetails (prompt_tokens_details u)
  +:+ ")".

(** [str(response.usage)]. *)
Definition str_usage (u : option CompletionUsage) : string :=
  str_option str_CompletionUsage u.

(** ** The notebook *)

Section Notebook.

Context (svc : Services).

(** *** Cell 4: the imports (lines 102-107)

    The names that the import cell binds. They are the only imports of the
    notebook. *)

Definition imported : list (string * pyobj) :=
  [ ("boto3", ObjModule "boto3");
    ("json", ObjModule "json");
    ("display", ObjCallable "IPython.display.display");
    ("Image", ObjCallable "IPython.display.Image");
    ("Markdown", ObjCallable "IPython.display.Markdown");
    ("OpenAI", ObjCallable "openai.OpenAI");
    ("pd", ObjModule "pandas");
    ("pprint", ObjCallable "pprint.pprint") ].

Definition cell_imports : M unit :=
  fun w =>
    (Return tt,
     {| globals := list_to_map imported ∪ globals w;
        stdout := stdout w;
        secret_log := secret_log w;
        chat_log := chat_log w |}).

(** *** Cell 5: get_secret (lines 127-146) *)

(** [session.client(service_name=..., region_name=...)]. *)
Definition session_client (_ : BotoSession) (service region : string) : BotoClient :=
  {| service_name := service; region_name := region |}.

(** [client.get_secret_value(SecretId=...)]: one request to the store. *)
Definition client_get_secret_value (client : BotoClient) (secret_id : string)
    : M (gmap string pyval) :=
  fun w =>
    let req := {| via_client := client; SecretId := secret_id |} in
    (secretsmanager svc (secret_log w) req,
     {| globals := globals w;
        stdout := stdout w;
        secret_log := secret_log w ++ [req];
        chat_log := chat_log w |}).

(** [json.loads(x)]. *)
Definition json_loads_obj (x : pyval) : M pyval :=
  match x with
  | PStr s => lift (json_loads svc s)
  | _ => raise (Exn TypeError "the JSON object must be str, bytes or bytearray" None)
  end.

Definition get_secret (secret_name : string) : M pyval :=
  let region_name := "us-east-1" in
  let session := Session in
  let client := session_client session "secretsmanager" region_name in
  get_secret_value_response <-
    try_except (client_get_secret_value client secret_name)
      "ClientError" (fun e => raise e) ;;
  secret <- dict_getitem get_secret_value_response "SecretString" ;;
  json_loads_obj secret.

Definition cell_def_get_secret : M unit :=
  set_global "get_secret" (ObjCallable "get_secret").

(** *** Cell 6: the client (line 168)

    [client = OpenAI(api_key= get_secret('openai')['api_key'])]: the
    argument is evaluated first; the constructor keeps the key and sends
    nothing. *)

Definition cell_init_client : M unit :=
  bundle <- get_secret "openai" ;;
  key <- getitem bundle "api_key" ;;
  set_global "client" (ObjClient {| api_key := key |}).

(** *** Cell 12: openai_gpt_help (lines 451-462) *)

(** The global [client], as [client.chat.completions] needs it. *)
Definition global_client : M OpenAI :=
  fun w =>
    match lookup_name (globals w) "client" with
    | None => (Raise (Exn NameError "name 'client' is not defined" None), w)
    | Some (ObjClient h) => (Return h, w)
    | Some _ => (Raise (Exn AttributeError "object has no attribute 'chat'" None), w)
    end.

(** [client.chat.completions.create(model=..., messages=..., temperature=...)]:
    one request to the endpoint. *)
Definition chat_completions_create (client : OpenAI) (model : string)
    (messages : list (gmap string pyval)) (temperature : Z) : M ChatCompletion :=
  fun w =>
    let req := {| via_openai := client; model := model;
                  messages := messages; temperature := temperature |} in
    (completions svc (chat_log w) req,
     {| globals := globals w;
        stdout := stdout w;
        secret_log := secret_log w;
        chat_log := chat_log w ++ [req] |}).

Definition openai_gpt_help (prompt : string) : M (option string) :=
  let messages := [ {[ "role" := PStr "user"; "content" := PStr prompt ]} ] in
  client <- global_client ;;
  response <- chat_completions_create client "gpt-4o" messages 0 ;;
  let token_usage := usage response in
  pprint ("Tokens used: " +:+ str_usage token_usage) ;;;
  choice <- list_getitem (choices response) 0 ;;
  ret (content (message choice)).

Definition cell_def_openai_gpt_help : M unit :=
  set_global "openai_gpt_help" (ObjCallable "openai_gpt_help").

End Notebook.

(** * The vocabulary of the statements *)

(** The request that [get_secret name] sends. *)
Definition secret_request (name : string) : SecretRequest :=
  {| via_client := {| service_name := "secretsmanager"; region_name := "us-east-1" |};
     SecretId := name |}.

(** The request that [openai_gpt_help prompt] sends through [client]. *)
Definition chat_request (client : OpenAI) (prompt : string) : ChatRequest :=
  {| via_openai := client;
     model := "gpt-4o";
     messages := [ {[ "role" := PStr "user"; "content" := PStr prompt ]} ];
     temperature := 0 |}.

(** The three ways in which a run changes the world. *)
Definition log_secret (req : SecretRequest) (w : World) : World :=
  {| globals := globals w;
     stdout := stdout w;
     secret_log := secret_log w ++ [req];
     chat_log := chat_log w |}.

Definition log_chat (req : ChatRequest) (w : World) : World :=
  {| globals := globals w;
     stdout := stdout w;
     secret_log := secret_log w;
     chat_log := chat_log w ++ [req] |}.

Definition log_stdout (s : string) (w : World) : World :=
  {| globals := globals w;
     stdout := stdout w ++ [s];
     secret_log := secret_log w;
     chat_log := chat_log w |}.

(** The string that [openai_gpt_help] hands to [pprint]. *)
Definition usage_line (u : option CompletionUsage) : string :=
  "Tokens used: " +:+ str_usage u.

(** [response.choices[0].message.content]. *)
Definition first_content (r : ChatCompletion) : outcome (option string) :=
  match choices r with
  | c :: _ => Return (content (message c))
  | [] => Raise (Exn IndexError "list index out of range" None)
  end.

(** The global [client] is bound to the handle [h]. *)
Definition client_bound (w : World) (h : OpenAI) : Prop :=
  lookup_name (globals w) "client" = Some (ObjClient h).

(** [openai_gpt_help] surfaces the usage record [u]: the run prints the
    usage line of [u]. *)
Definition surfaces (svc : Services) (prompt : string) (w : World)
    (u : CompletionUsage) : Prop :=
  stdout (snd (openai_gpt_help svc prompt w)) = (stdout w ++ [usage_line (Some u)])%list.

(** The accounting identity of the specification. *)
Definition balanced (u : CompletionUsage) : Prop :=
  total_tokens u = prompt_tokens u + completion_tokens u.

(** ** Characters of the usage line *)

(** The characters of a rendered integer: digits and the sign. *)
Definition numeric (c : ascii) : bool :=
  bool_decide (c ∈ ["0"; "1"; "2"; "3"; "4"; "5"; "6"; "7"; "8"; "9"; "-"]%char).

Fixpoint all_numeric (s : string) : bool :=
  match s with
  | EmptyString => true
  | String c r => numeric c && all_numeric r
  end.

(** A text that cannot be mistaken for the continuation of an integer. *)
Definition separator (sep : string) : bool :=
  match sep with
  | EmptyString => false
  | String c _ => negb (numeric c)
  end.

(** * Stubs and worlds

    The services and kernels at which the statements are instantiated. *)

(** The kernel after cells 4 and 5 have run: imports done, [get_secret]
    defined, nothing else bound. *)
Definition world_after_imports : World :=
  {| globals := <["get_secret" := ObjCallable "get_secret"]> (list_to_map imported);
     stdout := [];
     secret_log := [];
     chat_log := [] |}.

(** A deserializer stub: a table of known texts. *)
Definition stub_loads (table : list (string * pyval)) (s : string) : outcome pyval :=
  match list_to_map (M := gmap string pyval) table !! s with
  | Some v => Return v
  | None => Raise (Exn JSONDecodeError "Expecting value" None)
  end.

(** Services whose secret store and endpoint give one fixed answer. *)
Definition stub_services (store : outcome (gmap string pyval))
    (table : list (string * pyval)) (endpoint : outcome ChatCompletion) : Services :=
  {| secretsmanager := fun _ _ => store;
     json_loads := stub_loads table;
     completions := fun _ _ => endpoint |}.

Definition dquote : string := String "034"%char EmptyString.

(** The secret of the notebook's instructions (key name [api_key]), serialized. *)
Definition secret_text : string :=
  "{" +:+ dquote +:+ "api_key" +:+ dquote +:+ ": "
      +:+ dquote +:+ "sk-test" +:+ dquote +:+ "}".

Definition secret_bundle : gmap string pyval := {[ "api_key" := PStr "sk-test" ]}.

(** A secret that was stored under another key name. *)
Definition other_text : string :=
  "{" +:+ dquote +:+ "key" +:+ dquote +:+ ": "
      +:+ dquote +:+ "sk-test" +:+ dquote +:+ "}".

Definition other_bundle : gmap string pyval := {[ "key" := PStr "sk-test" ]}.

Definition loads_table : list (string * pyval) :=
  [ (secret_text, PDict secret_bundle); (other_text, PDict other_bundle) ].

Definition store_answer (text : string) : outcome (gmap string pyval) :=
  Return {[ "Name" := PStr "openai"; "SecretString" := PStr text ]}.

(** The authorization error of a stubbed secret store. *)
Definition access_denied : exn :=
  Exn ClientError
    "An error occurred (AccessDeniedException) when calling the GetSecretValue operation"
    None.

(** A transport error of a stubbed secret store. *)
Definition endpoint_unreachable : exn :=
  Exn BotoCoreError "Could not connect to the endpoint URL" None.

Definition no_completion : outcome ChatCompletion :=
  Raise (Exn APIError "Connection error." None).

Definition svc_secret_ok : Services :=
  stub_services (store_answer secret_text) loads_table no_completion.

Definition svc_secret_other_key : Services :=
  stub_services (store_answer other_text) loads_table no_completion.

Definition svc_secret_denied : Services :=
  stub_services (Raise access_denied) loads_table no_completion.

Definition svc_secret_unreachable : Services :=
  stub_services (Raise endpoint_unreachable) loads_table no_completion.

(** The kernel once cell 6 has run against the stubbed secret store. *)
Definition world_ready : World :=
  snd ((cell_init_client svc_secret_ok ;;; cell_def_openai_gpt_help) world_after_imports).

Definition test_client : OpenAI := {| api_key := PStr "sk-test" |}.

Definition usage_of (p c t : Z) : CompletionUsage :=
  {| completion_tokens := c;
     prompt_tokens := p;
     total_tokens := t;
     completion_tokens_details := None;
     prompt_tokens_details := None |}.

Definition text_response (text : string) (u : CompletionUsage) : ChatCompletion :=
  {| choices := [ {| message := {| content := Some text |} |} ];
     usage := Some u |}.

(** The stubbed endpoint of the end-to-end scenario. *)
Definition hello_response : ChatCompletion :=
  text_response "Hello!" (usage_of 5 2 7).

Definition svc_hello : Services :=
  stub_services (store_answer secret_text) loads_table (Return hello_response).

(** An endpoint whose usage record does not add up. *)
Definition unbalanced_usage : CompletionUsage := usage_of 5 2 8.

Definition svc_unbalanced : Services :=
  stub_services (store_answer secret_text) loads_table
    (Return (text_response "Hello!" unbalanced_usage)).

(** An endpoint that answers with no choice at all. *)
Definition svc_no_choice : Services :=
  stub_services (store_answer secret_text) loads_table
    (Return {| choices := []; usage := Some (usage_of 5 0 5) |}).

(** An endpoint that refuses the key. *)
Definition invalid_key : exn :=
  Exn APIError "Error code: 401 - Incorrect API key provided" None.

Definition svc_invalid_key : Services :=
  stub_services (store_answer secret_text) loads_table (Raise invalid_key).

(** The usage of the run that the notebook records (cell 13). *)
Definition recorded_usage : CompletionUsage :=
  {| completion_tokens := 666;
     prompt_tokens := 340;
     total_tokens := 1006;
     completion_tokens_details :=
       Some {| accepted_prediction_tokens := 0; ctd_audio_tokens := 0;
               reasoning_tokens := 0; rejected_prediction_tokens := 0 |};
     prompt_tokens_details :=
       Some {| ptd_audio_tokens := 0; cached_tokens := 0 |} |}.

(** * The caller of openai_gpt_help, and sessions of the notebook *)

(** A Python value for [response.choices[0].message.content]. *)
Definition pyval_of_content (c : option string) : pyval :=
  match c with
  | Some s => PStr s
  | None => PNone
  end.

(** Cell 13 (line 484): [gpt_result = openai_gpt_help(prompt=data_prompt)].
    The argument is the global that cell 11 binds to a str; the cell is
    modelled from the point where that str has been read. The name is bound
    only when the call has returned. *)
Definition cell_gpt_result (svc : Services) (data_prompt : string) : M unit :=
  gpt_result <- openai_gpt_help svc data_prompt ;;
  set_global "gpt_result" (ObjVal (pyval_of_content gpt_result)).

(** The code cells of the notebook that can run: cells 4, 5, 6, 12 and 13. *)
Inductive cell : Type :=
| Cell4
| Cell5
| Cell6
| Cell12
| Cell13 (data_prompt : string).

Definition run_cell (svc : Services) (c : cell) : M unit :=
  match c with
  | Cell4 => cell_imports
  | Cell5 => cell_def_get_secret
  | Cell6 => cell_init_client svc
  | Cell12 => cell_def_openai_gpt_help
  | Cell13 data_prompt => cell_gpt_result svc data_prompt
  end.

(** A session: the user runs cells one after the other, in any order and
    any number of times. A cell that raises leaves the kernel as it is at
    that point, and the next cell runs in that kernel. *)
Definition run_session (svc : Services) (cells : list cell) (w : World) : World :=
  fold_left (fun w c => snd (run_cell svc c w)) cells w.


(** ** Invariants of the logs *)

(** A request as [openai_gpt_help] builds them: model [gpt-4o],
    temperature 0, one message, of role [user], that holds a str. *)
Definition gpt_help_request (r : ChatRequest) : Prop :=
  model r = "gpt-4o"
  ∧ temperature r = 0
  ∧ ∃ prompt, messages r = [ {[ "role" := PStr "user"; "content" := PStr prompt ]} ].




(** ** More stubs and worlds *)

(** A kernel in which [ClientError] has been imported from botocore. *)
Definition world_with_ClientError : World :=
  snd (set_global "ClientError" (ObjClass ClientError) world_after_imports).

(** A secret stored as binary: the response has no [SecretString]. *)
Definition svc_secret_binary : Services :=
  stub_services (Return {[ "Name" := PStr "openai"; "SecretBinary" := PStr "c2stdGVzdA==" ]})
    loads_table no_completion.

(** A secret whose text is no JSON. *)
Definition svc_secret_plain : Services :=
  stub_services (store_answer "sk-test") loads_table no_completion.

(** A secret whose text is a JSON list. *)
Definition list_text : string := "[" +:+ dquote +:+ "sk-test" +:+ dquote +:+ "]".

Definition svc_secret_list : Services :=
  stub_services (store_answer list_text) [ (list_text, PList [PStr "sk-test"]) ] no_completion.

(** An endpoint that reports no usage. *)
Definition svc_no_usage : Services :=
  stub_services (store_answer secret_text) loads_table
    (Return {| choices := [ {| message := {| content := Some "Hello!" |} |} ];
               usage := None |}).

(** The notebook run from top to bottom, then cell 13 once more. *)
Definition full_session : list cell :=
  [ Cell4; Cell5; Cell6; Cell12; Cell13 "Say hello."; Cell13 "Say hello again." ].

(** * Properties *)

(** ** get_secret: the runs *)

Section GetSecret.

Context (svc : Services).

(** Whatever the store answers, [get_secret] has sent it exactly one
    request, and has touched neither the globals nor the output. *)
Lemma get_secret_world name w :
  snd (get_secret svc name w) = log_secret (secret_request name) w.
Proof.
  unfold get_secret, bind, try_except, client_get_secret_value, session_client; simpl.
  fold (secret_request name).
  destruct (secretsmanager svc (secret_log w) (secret_request name)) as [resp|e]; simpl.
  - unfold dict_getitem.
    destruct (resp !! "SecretString") as [v|]; simpl; [|reflexivity].
    destruct v; reflexivity.
  - destruct (lookup_name _ "ClientError") as [[]|]; simpl; try reflexivity.
    destruct (isinstance e c); reflexivity.
Qed.

(** The success path: the [except] clause is never evaluated. *)
Lemma get_secret_success name w resp s :
  secretsmanager svc (secret_log w) (secret_request name) = Return resp →
  resp !! "SecretString" = Some (PStr s) →
  get_secret svc name w = (json_loads svc s, log_secret (secret_request name) w).
Proof.
  intros Hstore Hfield.
  unfold get_secret, bind, try_except, client_get_secret_value, session_client; simpl.
  fold (secret_request name). rewrite Hstore. simpl.
  unfold dict_getitem. rewrite Hfield. reflexivity.
Qed.

(** The failure path when no cell has bound [ClientError]. *)
Lemma get_secret_failure_unbound name w e :
  secretsmanager svc (secret_log w) (secret_request name) = Raise e →
  lookup_name (globals w) "ClientError" = None →
  get_secret svc name w =
    (Raise (Exn NameError "name 'ClientError' is not defined" (Some e)),
     log_secret (secret_request name) w).
Proof.
  intros Hstore Hname.
  unfold get_secret, bind, try_except, client_get_secret_value, session_client; simpl.
  fold (secret_request name). rewrite Hstore. simpl. rewrite Hname. reflexivity.
Qed.

(** The failure path had the notebook imported botocore's [ClientError]:
    a [ClientError] is re-raised by the handler, any other error passes
    the clause; either way the caller gets the store's error itself. *)
Lemma get_secret_failure_bound name w e :
  secretsmanager svc (secret_log w) (secret_request name) = Raise e →
  lookup_name (globals w) "ClientError" = Some (ObjClass ClientError) →
  get_secret svc name w = (Raise e, log_secret (secret_request name) w).
Proof.
  intros Hstore Hname.
  unfold get_secret, bind, try_except, client_get_secret_value, session_client; simpl.
  fold (secret_request name). rewrite Hstore. simpl. rewrite Hname.
  destruct (isinstance e ClientError); reflexivity.
Qed.

End GetSecret.

(** ** get_secret and the client cell: the claims *)

(** No cell of the notebook binds [ClientError], and it is no builtin. *)
Lemma ClientError_unbound :
  lookup_name (globals world_after_imports) "ClientError" = None.
Proof. vm_compute. reflexivity. Qed.

(** [world_after_imports] is what cells 4 and 5 leave of an empty kernel. *)
Lemma world_after_imports_runs :
  snd ((cell_imports ;;; cell_def_get_secret) empty_world) = world_after_imports.
Proof.
  vm_compute. reflexivity.
Qed.

(** C1 (the code departs from the claim). A stubbed secret store raises an
    authorization error. [get_secret] does not hand that error to its
    caller: the [except ClientError] clause names a class that no cell
    imports, so evaluating the clause raises [NameError], and the store's
    error survives only as the context of the [NameError]. *)
Theorem get_secret_access_denied_raises_NameError :
  get_secret svc_secret_denied "openai" world_after_imports =
    (Raise (Exn NameError "name 'ClientError' is not defined" (Some access_denied)),
     log_secret (secret_request "openai") world_after_imports)
  ∧ fst (get_secret svc_secret_denied "openai" world_after_imports) ≠ Raise access_denied.
Proof.
  assert (Hrun := get_secret_failure_unbound svc_secret_denied "openai"
                    world_after_imports access_denied eq_refl ClientError_unbound).
  split; [exact Hrun|].
  rewrite Hrun. simpl. intros Heq. inversion Heq.
Qed.

(** An error that is no [ClientError] fares the same: the clause is
    evaluated before any class is compared. *)
Example get_secret_unreachable_raises_NameError :
  fst (get_secret svc_secret_unreachable "openai" world_after_imports) =
    Raise (Exn NameError "name 'ClientError' is not defined" (Some endpoint_unreachable)).
Proof.
  rewrite (get_secret_failure_unbound svc_secret_unreachable "openai"
             world_after_imports endpoint_unreachable eq_refl ClientError_unbound).
  reflexivity.
Qed.

(** C9. Whatever the secret identifier, the services and the world,
    [get_secret] sends the store exactly one request, through a
    [secretsmanager] client of region [us-east-1]; the identifier is the
    only part of the request that varies. *)
Theorem get_secret_region_us_east_1 (svc : Services) (name : string) (w : World) :
  secret_log (snd (get_secret svc name w)) =
    (secret_log w ++
       [ {| via_client := {| service_name := "secretsmanager";
                             region_name := "us-east-1" |};
            SecretId := name |} ])%list.
Proof. rewrite get_secret_world. reflexivity. Qed.

(** C4. When the store's response holds, under [SecretString], a text that
    deserializes to a bundle with the expected key, [get_secret] returns
    that very bundle, and the key's value read from the returned bundle is
    the deserialized value. *)
Theorem get_secret_returns_deserialized_bundle
    (svc : Services) (name : string) (w : World)
    (resp : gmap string pyval) (s : string)
    (bundle : gmap string pyval) (k : string) (v : pyval) :
  secretsmanager svc (secret_log w) (secret_request name) = Return resp →
  resp !! "SecretString" = Some (PStr s) →
  json_loads svc s = Return (PDict bundle) →
  bundle !! k = Some v →
  fst (get_secret svc name w) = Return (PDict bundle)
  ∧ fst ((b <- get_secret svc name ;; getitem b k) w) = Return v.
Proof.
  intros Hstore Hfield Hloads Hkey.
  pose proof (get_secret_success svc name w resp s Hstore Hfield) as Hrun.
  rewrite Hloads in Hrun. split.
  - rewrite Hrun. reflexivity.
  - unfold bind. rewrite Hrun. simpl. unfold dict_getitem. rewrite Hkey. reflexivity.
Qed.

Lemma get_secret_returns_deserialized_bundle_witness :
  fst (get_secret svc_secret_ok "openai" world_after_imports) = Return (PDict secret_bundle)
  ∧ fst ((b <- get_secret svc_secret_ok "openai" ;; getitem b "api_key")
           world_after_imports) = Return (PStr "sk-test").
Proof.
  apply (get_secret_returns_deserialized_bundle svc_secret_ok "openai"
           world_after_imports
           {[ "Name" := PStr "openai"; "SecretString" := PStr secret_text ]}
           secret_text secret_bundle "api_key" (PStr "sk-test")).
  - reflexivity.
  - vm_compute. reflexivity.
  - vm_compute. reflexivity.
  - vm_compute. reflexivity.
Defined.

(** C2. When the bundle that [get_secret('openai')] resolves is a mapping
    without the key [api_key], the client initialisation cell fails with
    [KeyError], a lookup error, and binds no client: there is no default. *)
Theorem init_client_missing_key_raises_KeyError
    (svc : Services) (w : World)
    (resp : gmap string pyval) (s : string) (bundle : gmap string pyval) :
  secretsmanager svc (secret_log w) (secret_request "openai") = Return resp →
  resp !! "SecretString" = Some (PStr s) →
  json_loads svc s = Return (PDict bundle) →
  bundle !! "api_key" = None →
  fst (cell_init_client svc w) = Raise (Exn KeyError "api_key" None)
  ∧ is_lookup_error (Exn KeyError "api_key" None) = true
  ∧ globals (snd (cell_init_client svc w)) = globals w.
Proof.
  intros Hstore Hfield Hloads Hkey.
  pose proof (get_secret_success svc "openai" w resp s Hstore Hfield) as Hrun.
  rewrite Hloads in Hrun.
  unfold cell_init_client, bind. rewrite Hrun. simpl.
  unfold dict_getitem. rewrite Hkey. simpl. auto.
Qed.

Lemma init_client_missing_key_raises_KeyError_witness :
  fst (cell_init_client svc_secret_other_key world_after_imports)
    = Raise (Exn KeyError "api_key" None)
  ∧ is_lookup_error (Exn KeyError "api_key" None) = true
  ∧ globals (snd (cell_init_client svc_secret_other_key world_after_imports))
    = globals world_after_imports.
Proof.
  apply (init_client_missing_key_raises_KeyError svc_secret_other_key
           world_after_imports
           {[ "Name" := PStr "openai"; "SecretString" := PStr other_text ]}
           other_text other_bundle).
  - reflexivity.
  - vm_compute. reflexivity.
  - vm_compute. reflexivity.
  - vm_compute. reflexivity.
Defined.

(** ** openai_gpt_help: the runs *)

Section GptHelp.

Context (svc : Services).

(** One run, once the client exists: the request goes out first; the
    usage line is printed only when the endpoint has answered; the first
    choice is read last. *)
Lemma openai_gpt_help_run prompt w h :
  client_bound w h →
  openai_gpt_help svc prompt w =
    match completions svc (chat_log w) (chat_request h prompt) with
    | Return r =>
        (first_content r,
         log_stdout (usage_line (usage r)) (log_chat (chat_request h prompt) w))
    | Raise e => (Raise e, log_chat (chat_request h prompt) w)
    end.
Proof.
  unfold client_bound. intros Hclient.
  unfold openai_gpt_help, bind, global_client. rewrite Hclient.
  unfold chat_completions_create. fold (chat_request h prompt).
  destruct (completions svc (chat_log w) (chat_request h prompt)) as [r|e];
    [|reflexivity].
  unfold pprint, list_getitem, first_content, usage_line, log_stdout, log_chat; simpl.
  destruct (choices r) as [|c rest]; reflexivity.
Qed.

(** Without a client no request is sent at all. *)
Lemma openai_gpt_help_no_client prompt w :
  lookup_name (globals w) "client" = None →
  openai_gpt_help svc prompt w =
    (Raise (Exn NameError "name 'client' is not defined" None), w).
Proof.
  intros Hclient. unfold openai_gpt_help, bind, global_client.
  rewrite Hclient. reflexivity.
Qed.

End GptHelp.

(** Cell 6, run against the stubbed store, binds the client. *)
Lemma world_ready_client : client_bound world_ready test_client.
Proof. vm_compute. reflexivity. Qed.

(** The model prints what the notebook recorded. *)
Example recorded_usage_line :
  usage_line (Some recorded_usage) =
    "Tokens used: CompletionUsage(completion_tokens=666, prompt_tokens=340, "
    +:+ "total_tokens=1006, "
    +:+ "completion_tokens_details=CompletionTokensDetails(accepted_prediction_tokens=0, "
    +:+ "audio_tokens=0, reasoning_tokens=0, rejected_prediction_tokens=0), "
    +:+ "prompt_tokens_details=PromptTokensDetails(audio_tokens=0, cached_tokens=0))".
Proof. vm_compute. reflexivity. Qed.

(** A run of [openai_gpt_help] leaves the global namespace as it was. *)
Lemma openai_gpt_help_globals (svc : Services) (prompt : string) (w : World) :
  globals (snd (openai_gpt_help svc prompt w)) = globals w.
Proof.
  unfold openai_gpt_help, bind, global_client.
  destruct (lookup_name (globals w) "client") as [[]|]; try reflexivity.
  unfold chat_completions_create.
  destruct (completions svc _ _) as [r|e]; [|reflexivity].
  unfold pprint, list_getitem; simpl.
  destruct (choices r); reflexivity.
Qed.

(** ** openai_gpt_help: the claims *)

(** C3 as stated fails: in the end-to-end scenario the value that
    [openai_gpt_help] returns is the text alone. The usage counts are not
    in it: an endpoint that reports 5/2/8 for the same text makes the
    function return the very same value. *)
Lemma say_hello_returns_the_text_alone :
  fst (openai_gpt_help svc_hello "Say hello." world_ready) = Return (Some "Hello!")
  ∧ fst (openai_gpt_help svc_unbalanced "Say hello." world_ready)
    = fst (openai_gpt_help svc_hello "Say hello." world_ready)
  ∧ usage (text_response "Hello!" (usage_of 5 2 8)) ≠ usage hello_response.
Proof.
  rewrite (openai_gpt_help_run svc_hello _ _ _ world_ready_client).
  rewrite (openai_gpt_help_run svc_unbalanced _ _ _ world_ready_client).
  simpl. repeat split. discriminate.
Qed.

(** C3, amended. The end-to-end scenario: prompt [Say hello.], an endpoint
    that answers this request with the text [Hello!] and usage 5/2/7. The
    value that the function returns is exactly [Hello!]; the usage record
    with the counts 5 (prompt), 2 (completion) and 7 (total) is printed,
    not returned; the one request sent names model [gpt-4o] and
    temperature 0. *)
Theorem openai_gpt_help_say_hello (svc : Services) (w : World) (h : OpenAI) :
  client_bound w h →
  completions svc (chat_log w) (chat_request h "Say hello.") = Return hello_response →
  fst (openai_gpt_help svc "Say hello." w) = Return (Some "Hello!")
  ∧ stdout (snd (openai_gpt_help svc "Say hello." w)) =
      (stdout w ++
        [ "Tokens used: CompletionUsage(completion_tokens=2, prompt_tokens=5, "
          +:+ "total_tokens=7, completion_tokens_details=None, "
          +:+ "prompt_tokens_details=None)" ])%list
  ∧ chat_log (snd (openai_gpt_help svc "Say hello." w)) =
      (chat_log w ++
        [ {| via_openai := h;
             model := "gpt-4o";
             messages := [ {[ "role" := PStr "user"; "content" := PStr "Say hello." ]} ];
             temperature := 0 |} ])%list.
Proof.
  intros Hclient Hendpoint.
  rewrite (openai_gpt_help_run svc _ w h Hclient), Hendpoint.
  repeat split.
Qed.

Lemma openai_gpt_help_say_hello_witness :
  fst (openai_gpt_help svc_hello "Say hello." world_ready) = Return (Some "Hello!")
  ∧ stdout (snd (openai_gpt_help svc_hello "Say hello." world_ready)) =
      [ "Tokens used: CompletionUsage(completion_tokens=2, prompt_tokens=5, "
        +:+ "total_tokens=7, completion_tokens_details=None, "
        +:+ "prompt_tokens_details=None)" ]
  ∧ chat_log (snd (openai_gpt_help svc_hello "Say hello." world_ready)) =
      [ {| via_openai := test_client;
           model := "gpt-4o";
           messages := [ {[ "role" := PStr "user"; "content" := PStr "Say hello." ]} ];
           temperature := 0 |} ].
Proof.
  apply (openai_gpt_help_say_hello svc_hello world_ready test_client).
  - vm_compute. reflexivity.
  - reflexivity.
Defined.

(** C5. For every prompt, once the client exists, [openai_gpt_help] sends
    the endpoint exactly one request, whether the endpoint answers or
    fails: model [gpt-4o], one message of role [user] whose content is the
    prompt, temperature 0. *)
Theorem openai_gpt_help_one_request
    (svc : Services) (prompt : string) (w : World) (h : OpenAI) :
  client_bound w h →
  chat_log (snd (openai_gpt_help svc prompt w)) =
    (chat_log w ++
      [ {| via_openai := h;
           model := "gpt-4o";
           messages := [ {[ "role" := PStr "user"; "content" := PStr prompt ]} ];
           temperature := 0 |} ])%list.
Proof.
  intros Hclient. rewrite (openai_gpt_help_run svc prompt w h Hclient).
  destruct (completions svc _ _); reflexivity.
Qed.

Lemma openai_gpt_help_one_request_witness :
  chat_log (snd (openai_gpt_help svc_invalid_key "Say hello." world_ready)) =
    [ {| via_openai := test_client;
         model := "gpt-4o";
         messages := [ {[ "role" := PStr "user"; "content" := PStr "Say hello." ]} ];
         temperature := 0 |} ].
Proof.
  apply (openai_gpt_help_one_request svc_invalid_key "Say hello." world_ready test_client).
  vm_compute. reflexivity.
Defined.

(** C6. Against an endpoint that returns one fixed payload, two successive
    calls with the same prompt have the same outcome (the same text, or the
    same error when the payload has no choice) and print the same usage
    line. *)
Theorem openai_gpt_help_repeatable
    (svc : Services) (payload : ChatCompletion) (prompt : string)
    (w : World) (h : OpenAI) :
  client_bound w h →
  (∀ log req, completions svc log req = Return payload) →
  fst (openai_gpt_help svc prompt (snd (openai_gpt_help svc prompt w)))
    = fst (openai_gpt_help svc prompt w)
  ∧ stdout (snd (openai_gpt_help svc prompt w))
    = (stdout w ++ [usage_line (usage payload)])%list
  ∧ stdout (snd (openai_gpt_help svc prompt (snd (openai_gpt_help svc prompt w))))
    = (stdout w ++ [usage_line (usage payload); usage_line (usage payload)])%list.
Proof.
  intros Hclient Hfixed.
  assert (Hclient' : client_bound (snd (openai_gpt_help svc prompt w)) h).
  { unfold client_bound. rewrite openai_gpt_help_globals. exact Hclient. }
  rewrite (openai_gpt_help_run svc prompt _ h Hclient').
  rewrite (openai_gpt_help_run svc prompt w h Hclient).
  rewrite !Hfixed. simpl. rewrite <- app_assoc. auto.
Qed.

Lemma openai_gpt_help_repeatable_witness :
  fst (openai_gpt_help svc_hello "Say hello."
         (snd (openai_gpt_help svc_hello "Say hello." world_ready)))
    = fst (openai_gpt_help svc_hello "Say hello." world_ready)
  ∧ stdout (snd (openai_gpt_help svc_hello "Say hello." world_ready))
    = [usage_line (Some (usage_of 5 2 7))]
  ∧ stdout (snd (openai_gpt_help svc_hello "Say hello."
                   (snd (openai_gpt_help svc_hello "Say hello." world_ready))))
    = [usage_line (Some (usage_of 5 2 7)); usage_line (Some (usage_of 5 2 7))].
Proof.
  apply (openai_gpt_help_repeatable svc_hello hello_response "Say hello."
           world_ready test_client).
  - vm_compute. reflexivity.
  - intros log req. reflexivity.
Defined.

(** C8. When the endpoint raises an error, [openai_gpt_help] raises that
    very error: there is no return value, and nothing has been printed. *)
Theorem openai_gpt_help_endpoint_error
    (svc : Services) (prompt : string) (w : World) (h : OpenAI) (e : exn) :
  client_bound w h →
  completions svc (chat_log w) (chat_request h prompt) = Raise e →
  fst (openai_gpt_help svc prompt w) = Raise e
  ∧ stdout (snd (openai_gpt_help svc prompt w)) = stdout w.
Proof.
  intros Hclient Hendpoint.
  rewrite (openai_gpt_help_run svc prompt w h Hclient), Hendpoint.
  split; reflexivity.
Qed.

Lemma openai_gpt_help_endpoint_error_witness :
  fst (openai_gpt_help svc_invalid_key "Say hello." world_ready) = Raise invalid_key
  ∧ stdout (snd (openai_gpt_help svc_invalid_key "Say hello." world_ready)) = [].
Proof.
  apply (openai_gpt_help_endpoint_error svc_invalid_key "Say hello." world_ready
           test_client invalid_key).
  - vm_compute. reflexivity.
  - reflexivity.
Defined.

(** C10. When the endpoint answers, [openai_gpt_help] returns the content of
    the message of the first choice, whatever the other choices and the
    usage record are; when the answer has no choice, it raises
    [IndexError], a lookup error, and returns nothing. *)
Theorem openai_gpt_help_first_choice
    (svc : Services) (prompt : string) (w : World) (h : OpenAI) (r : ChatCompletion) :
  client_bound w h →
  completions svc (chat_log w) (chat_request h prompt) = Return r →
  (∀ c rest, choices r = c :: rest →
     fst (openai_gpt_help svc prompt w) = Return (content (message c)))
  ∧ (choices r = [] →
     fst (openai_gpt_help svc prompt w)
       = Raise (Exn IndexError "list index out of range" None)
     ∧ is_lookup_error (Exn IndexError "list index out of range" None) = true).
Proof.
  intros Hclient Hendpoint.
  rewrite (openai_gpt_help_run svc prompt w h Hclient), Hendpoint.
  unfold first_content. split.
  - intros c rest Hchoices. rewrite Hchoices. reflexivity.
  - intros Hchoices. rewrite Hchoices. split; reflexivity.
Qed.

Lemma openai_gpt_help_first_choice_witness :
  fst (openai_gpt_help svc_hello "Say hello." world_ready) = Return (Some "Hello!")
  ∧ fst (openai_gpt_help svc_no_choice "Say hello." world_ready)
    = Raise (Exn IndexError "list index out of range" None).
Proof.
  split.
  - refine (proj1 (openai_gpt_help_first_choice svc_hello "Say hello." world_ready
                     test_client hello_response _ _)
                  {| message := {| content := Some "Hello!" |} |} [] _).
    + vm_compute. reflexivity.
    + reflexivity.
    + reflexivity.
  - refine (proj1 (proj2 (openai_gpt_help_first_choice svc_no_choice "Say hello."
                            world_ready test_client
                            {| choices := []; usage := Some (usage_of 5 0 5) |} _ _) _)).
    + vm_compute. reflexivity.
    + reflexivity.
    + reflexivity.
Defined.

(** ** The usage line determines the usage record

    Two usage records that print the same line are the same record: the
    integers of a line are runs of digits (and a sign) that end at the
    next separator. *)

Lemma pretty_N_char_numeric x : numeric (pretty_N_char x) = true.
Proof. unfold pretty_N_char. repeat case_match; reflexivity. Qed.

Lemma pretty_N_go_numeric x s :
  all_numeric s = true → all_numeric (pretty_N_go x s) = true.
Proof.
  revert s. induction (N.lt_wf_0 x) as [x _ IH]; intros s Hs.
  destruct (decide (x = 0)%N) as [->|Hx].
  - rewrite pretty_N_go_0. exact Hs.
  - rewrite pretty_N_go_step by lia. apply IH.
    + apply N.div_lt; lia.
    + simpl. rewrite pretty_N_char_numeric. exact Hs.
Qed.

Lemma pretty_Z_numeric (z : Z) : all_numeric (pretty z) = true.
Proof.
  destruct z as [|p|p]; [reflexivity| |].
  - change (all_numeric (pretty_N_go (N.pos p) "") = true).
    apply pretty_N_go_numeric. reflexivity.
  - change (all_numeric (String "-" (pretty_N_go (N.pos p) "")) = true).
    simpl. apply pretty_N_go_numeric. reflexivity.
Qed.

(** A run of numeric characters ends where the first other character is. *)
Lemma numeric_prefix_inj a a' c r c' r' :
  all_numeric a = true → all_numeric a' = true →
  numeric c = false → numeric c' = false →
  a +:+ String c r = a' +:+ String c' r' →
  a = a' ∧ String c r = String c' r'.
Proof.
  revert a'. induction a as [|x a IH]; intros [|x' a'] Ha Ha' Hc Hc' Heq; simpl in *.
  - auto.
  - injection Heq as -> _. apply andb_prop in Ha' as [Hx _]. congruence.
  - injection Heq as -> _. apply andb_prop in Ha as [Hx _]. congruence.
  - injection Heq as -> Heq.
    apply andb_prop in Ha as [_ Ha]. apply andb_prop in Ha' as [_ Ha'].
    destruct (IH a' Ha Ha' Hc Hc' Heq) as [-> ?]. auto.
Qed.

Lemma pretty_Z_prefix_inj (z z' : Z) c r c' r' :
  numeric c = false → numeric c' = false →
  pretty z +:+ String c r = pretty z' +:+ String c' r' →
  z = z' ∧ String c r = String c' r'.
Proof.
  intros Hc Hc' Heq.
  destruct (numeric_prefix_inj _ _ _ _ _ _ (pretty_Z_numeric z) (pretty_Z_numeric z')
              Hc Hc' Heq) as [Hz ?].
  split; [|assumption]. apply (inj pretty). exact Hz.
Qed.

Lemma string_app_assoc (a b c : string) : (a +:+ b) +:+ c = a +:+ (b +:+ c).
Proof.
  induction a as [|x a IH]; [reflexivity|].
  change (String x ((a +:+ b) +:+ c) = String x (a +:+ (b +:+ c))).
  f_equal. exact IH.
Qed.

(** An integer followed by a separator is read back in one way only. *)
Lemma pretty_Z_sep_inj (sep : string) (z z' : Z) (r r' : string) :
  separator sep = true →
  pretty z +:+ sep +:+ r = pretty z' +:+ sep +:+ r' →
  z = z' ∧ r = r'.
Proof.
  destruct sep as [|c sep]; [discriminate|]. simpl. intros Hc Heq.
  apply negb_true_iff in Hc.
  change (pretty z +:+ String c (sep +:+ r) = pretty z' +:+ String c (sep +:+ r')) in Heq.
  destruct (pretty_Z_prefix_inj _ _ _ _ _ _ Hc Hc Heq) as [-> Hrest].
  split; [reflexivity|].
  injection Hrest as Hrest. exact (inj (String.app sep) _ _ Hrest).
Qed.

Ltac strip_literal H :=
  match type of H with
  | ?lit +:+ _ = ?lit +:+ _ => apply (inj (String.app lit)) in H
  end.

Ltac strip_int H :=
  match type of H with
  | pretty _ +:+ ?sep +:+ _ = pretty _ +:+ ?sep +:+ _ =>
      apply (pretty_Z_sep_inj sep) in H; [destruct H as [? H]|reflexivity]
  end.

Lemma str_CompletionTokensDetails_inj (d d' : CompletionTokensDetails) (r r' : string) :
  str_CompletionTokensDetails d +:+ r = str_CompletionTokensDetails d' +:+ r' →
  d = d' ∧ r = r'.
Proof.
  unfold str_CompletionTokensDetails. rewrite !string_app_assoc. intros H.
  strip_literal H. strip_int H. strip_int H. strip_int H. strip_int H.
  destruct d, d'; simpl in *; subst. auto.
Qed.

Lemma str_PromptTokensDetails_inj (d d' : PromptTokensDetails) (r r' : string) :
  str_PromptTokensDetails d +:+ r = str_PromptTokensDetails d' +:+ r' →
  d = d' ∧ r = r'.
Proof.
  unfold str_PromptTokensDetails. rewrite !string_app_assoc. intros H.
  strip_literal H. strip_int H. strip_int H.
  destruct d, d'; simpl in *; subst. auto.
Qed.

Lemma str_option_inj {A} (f : A → string) (o o' : option A) (r r' : string) :
  (∀ d d' s s', f d +:+ s = f d' +:+ s' → d = d' ∧ s = s') →
  (∀ d s s', f d +:+ s ≠ "None" +:+ s') →
  str_option f o +:+ r = str_option f o' +:+ r' →
  o = o' ∧ r = r'.
Proof.
  intros Hinj Hnone. destruct o as [d|], o' as [d'|]; simpl; intros H.
  - destruct (Hinj _ _ _ _ H) as [-> ->]. auto.
  - destruct (Hnone _ _ _ H).
  - symmetry in H. destruct (Hnone _ _ _ H).
  - strip_literal H. auto.
Qed.

Lemma str_CompletionTokensDetails_not_None d s s' :
  str_CompletionTokensDetails d +:+ s ≠ "None" +:+ s'.
Proof. unfold str_CompletionTokensDetails. rewrite !string_app_assoc. discriminate. Qed.

Lemma str_PromptTokensDetails_not_None d s s' :
  str_PromptTokensDetails d +:+ s ≠ "None" +:+ s'.
Proof. unfold str_PromptTokensDetails. rewrite !string_app_assoc. discriminate. Qed.

Lemma str_CompletionUsage_inj (u u' : CompletionUsage) :
  str_CompletionUsage u = str_CompletionUsage u' → u = u'.
Proof.
  unfold str_CompletionUsage. intros H.
  strip_literal H. strip_int H. strip_int H. strip_int H.
  apply str_option_inj in H as [? H];
    [|exact str_CompletionTokensDetails_inj|exact str_CompletionTokensDetails_not_None].
  strip_literal H.
  apply str_option_inj in H as [? _];
    [|exact str_PromptTokensDetails_inj|exact str_PromptTokensDetails_not_None].
  destruct u, u'; simpl in *; subst. reflexivity.
Qed.

Lemma usage_line_inj (o o' : option CompletionUsage) :
  usage_line o = usage_line o' → o = o'.
Proof.
  unfold usage_line, str_usage. intros H. strip_literal H.
  destruct o as [u|], o' as [u'|]; simpl in H.
  - f_equal. exact (str_CompletionUsage_inj _ _ H).
  - discriminate H.
  - discriminate H.
  - reflexivity.
Qed.

(** ** The usage record that a run surfaces *)

(** The output of a run: one usage line when the endpoint has answered,
    nothing otherwise. *)
Lemma openai_gpt_help_stdout (svc : Services) (prompt : string) (w : World) :
  stdout (snd (openai_gpt_help svc prompt w)) =
    match lookup_name (globals w) "client" with
    | Some (ObjClient h) =>
        match completions svc (chat_log w) (chat_request h prompt) with
        | Return r => (stdout w ++ [usage_line (usage r)])%list
        | Raise _ => stdout w
        end
    | _ => stdout w
    end.
Proof.
  destruct (lookup_name (globals w) "client") as [o|] eqn:Hclient.
  - destruct o as [m|f|c|h|v];
      try (unfold openai_gpt_help, bind, global_client; rewrite Hclient; reflexivity).
    rewrite (openai_gpt_help_run svc prompt w h Hclient).
    destruct (completions svc _ _); reflexivity.
  - rewrite (openai_gpt_help_no_client svc prompt w Hclient). reflexivity.
Qed.

(** The endpoint's record is surfaced. *)
Lemma surfaces_endpoint_usage (svc : Services) (prompt : string) (w : World)
    (h : OpenAI) (r : ChatCompletion) (u : CompletionUsage) :
  client_bound w h →
  completions svc (chat_log w) (chat_request h prompt) = Return r →
  usage r = Some u →
  surfaces svc prompt w u.
Proof.
  unfold surfaces, client_bound. intros Hclient Hendpoint Husage.
  rewrite openai_gpt_help_stdout, Hclient, Hendpoint, Husage. reflexivity.
Qed.

(** C7 as stated fails: an endpoint whose record says 5 + 2 = 8 has that
    record surfaced as it is. *)
Lemma surfaced_usage_unbalanced :
  surfaces svc_unbalanced "Say hello." world_ready (usage_of 5 2 8)
  ∧ ¬ balanced (usage_of 5 2 8).
Proof.
  split.
  - apply (surfaces_endpoint_usage svc_unbalanced "Say hello." world_ready test_client
             (text_response "Hello!" unbalanced_usage)).
    + exact world_ready_client.
    + reflexivity.
    + reflexivity.
  - unfold balanced. simpl. lia.
Qed.

(** C7, amended. Every usage record that [openai_gpt_help] surfaces is the
    usage record of the endpoint's answer to its request, unchanged: the
    function neither computes nor checks the counts. So the surfaced record
    satisfies total = prompt + completion whenever the endpoint's does. *)
Theorem surfaced_usage_is_endpoint_usage
    (svc : Services) (prompt : string) (w : World) (u : CompletionUsage) :
  surfaces svc prompt w u →
  ∃ h r,
    client_bound w h
    ∧ completions svc (chat_log w) (chat_request h prompt) = Return r
    ∧ usage r = Some u
    ∧ ((∀ u', usage r = Some u' → balanced u') → balanced u).
Proof.
  unfold surfaces, client_bound. rewrite openai_gpt_help_stdout. intros Hout.
  assert (Hnothing : ∀ x : string, stdout w ≠ (stdout w ++ [x])%list).
  { intros x Heq. apply (f_equal length) in Heq.
    rewrite length_app in Heq. simpl in Heq. lia. }
  destruct (lookup_name (globals w) "client") as [[m|f|c|h|v]|] eqn:Hclient;
    try (destruct (Hnothing _ Hout)).
  destruct (completions svc (chat_log w) (chat_request h prompt)) as [r|e] eqn:Hendpoint;
    [|destruct (Hnothing _ Hout)].
  apply app_inv_head in Hout.
  assert (Hline : usage_line (usage r) = usage_line (Some u)).
  { exact (inj Some _ _ (f_equal head Hout)). }
  apply usage_line_inj in Hline.
  exists h, r. split; [reflexivity|]. split; [exact Hendpoint|]. split; [exact Hline|].
  intros Hall. exact (Hall u Hline).
Qed.

Lemma surfaced_usage_is_endpoint_usage_witness :
  ∃ h r,
    client_bound world_ready h
    ∧ completions svc_hello (chat_log world_ready) (chat_request h "Say hello.") = Return r
    ∧ usage r = Some (usage_of 5 2 7)
    ∧ ((∀ u', usage r = Some u' → balanced u') → balanced (usage_of 5 2 7)).
Proof.
  apply (surfaced_usage_is_endpoint_usage svc_hello "Say hello." world_ready (usage_of 5 2 7)).
  vm_compute. reflexivity.
Defined.

(** * Further properties *)

(** ** How each operation changes the world *)

(** A subscript changes nothing in the world. *)
Lemma getitem_run (v : pyval) (k : string) (w : World) :
  getitem v k w = (fst (getitem v k w), w).
Proof.
  destruct v; simpl; try reflexivity.
  unfold dict_getitem. destruct (d !! k); reflexivity.
Qed.

(** Cell 6, step by step: the request to the store, the subscript, the
    binding. *)
Lemma cell_init_client_run (svc : Services) (w : World) :
  cell_init_client svc w =
    match fst (get_secret svc "openai" w) with
    | Raise e => (Raise e, log_secret (secret_request "openai") w)
    | Return bundle =>
        match fst (getitem bundle "api_key" w) with
        | Raise e => (Raise e, log_secret (secret_request "openai") w)
        | Return key =>
            set_global "client" (ObjClient {| api_key := key |})
              (log_secret (secret_request "openai") w)
        end
    end.
Proof.
  unfold cell_init_client, bind.
  pose proof (get_secret_world svc "openai" w) as Hworld.
  destruct (get_secret svc "openai" w) as [[bundle|e] w1]; simpl in *; subst w1;
    [|reflexivity].
  rewrite getitem_run.
  assert (Hsame : fst (getitem bundle "api_key" (log_secret (secret_request "openai") w))
                  = fst (getitem bundle "api_key" w)).
  { destruct bundle; simpl; try reflexivity.
    unfold dict_getitem. destruct (d !! "api_key"); reflexivity. }
  rewrite Hsame. destruct (fst (getitem bundle "api_key" w)); reflexivity.
Qed.

(** The world after a run of [openai_gpt_help]. *)
Lemma openai_gpt_help_world (svc : Services) (prompt : string) (w : World) :
  snd (openai_gpt_help svc prompt w) =
    match lookup_name (globals w) "client" with
    | Some (ObjClient h) =>
        match completions svc (chat_log w) (chat_request h prompt) with
        | Return r =>
            log_stdout (usage_line (usage r)) (log_chat (chat_request h prompt) w)
        | Raise _ => log_chat (chat_request h prompt) w
        end
    | _ => w
    end.
Proof.
  destruct (lookup_name (globals w) "client") as [o|] eqn:Hclient.
  - destruct o as [m|f|c|h|v];
      try (unfold openai_gpt_help, bind, global_client; rewrite Hclient; reflexivity).
    rewrite (openai_gpt_help_run svc prompt w h Hclient).
    destruct (completions svc _ _); reflexivity.
  - rewrite (openai_gpt_help_no_client svc prompt w Hclient). reflexivity.
Qed.

(** Cell 13: the call, then the binding when the call has returned. *)
Lemma cell_gpt_result_run (svc : Services) (data_prompt : string) (w : World) :
  cell_gpt_result svc data_prompt w =
    match fst (openai_gpt_help svc data_prompt w) with
    | Return text =>
        set_global "gpt_result" (ObjVal (pyval_of_content text))
          (snd (openai_gpt_help svc data_prompt w))
    | Raise e => (Raise e, snd (openai_gpt_help svc data_prompt w))
    end.
Proof.
  unfold cell_gpt_result, bind.
  destruct (openai_gpt_help svc data_prompt w) as [[text|e] w1]; reflexivity.
Qed.

(** ** get_secret: the other failures *)

(** X1. A response without [SecretString] (a secret stored as binary)
    makes [get_secret] raise [KeyError('SecretString')], after its one
    request, whatever the global namespace holds: the subscript is outside
    the [try]. *)
Theorem get_secret_missing_SecretString
    (svc : Services) (name : string) (w : World) (resp : gmap string pyval) :
  secretsmanager svc (secret_log w) (secret_request name) = Return resp →
  resp !! "SecretString" = None →
  get_secret svc name w =
    (Raise (Exn KeyError "SecretString" None), log_secret (secret_request name) w).
Proof.
  intros Hstore Hfield.
  unfold get_secret, bind, try_except, client_get_secret_value, session_client; simpl.
  fold (secret_request name). rewrite Hstore. simpl.
  unfold dict_getitem. rewrite Hfield. reflexivity.
Qed.

Lemma get_secret_missing_SecretString_witness :
  get_secret svc_secret_binary "openai" world_after_imports =
    (Raise (Exn KeyError "SecretString" None),
     log_secret (secret_request "openai") world_after_imports).
Proof.
  apply (get_secret_missing_SecretString svc_secret_binary "openai" world_after_imports
           {[ "Name" := PStr "openai"; "SecretBinary" := PStr "c2stdGVzdA==" ]}).
  - reflexivity.
  - vm_compute. reflexivity.
Defined.

(** X2. An error of [json.loads] reaches the caller of [get_secret] as it
    is: deserialization happens after the [try], so the [except] clause
    (and the unbound name in it) is not involved. *)
Theorem get_secret_loads_error_propagates
    (svc : Services) (name : string) (w : World)
    (resp : gmap string pyval) (s : string) (e : exn) :
  secretsmanager svc (secret_log w) (secret_request name) = Return resp →
  resp !! "SecretString" = Some (PStr s) →
  json_loads svc s = Raise e →
  fst (get_secret svc name w) = Raise e.
Proof.
  intros Hstore Hfield Hloads.
  rewrite (get_secret_success svc name w resp s Hstore Hfield), Hloads. reflexivity.
Qed.

Lemma get_secret_loads_error_propagates_witness :
  fst (get_secret svc_secret_plain "openai" world_after_imports)
    = Raise (Exn JSONDecodeError "Expecting value" None).
Proof.
  apply (get_secret_loads_error_propagates svc_secret_plain "openai" world_after_imports
           {[ "Name" := PStr "openai"; "SecretString" := PStr "sk-test" ]} "sk-test").
  - reflexivity.
  - vm_compute. reflexivity.
  - vm_compute. reflexivity.
Defined.

(** X3. In a kernel where the name [ClientError] is bound to an exception
    class, every error of the secret store reaches the caller of
    [get_secret] as it is: an instance of the class is re-raised by the
    handler, any other error passes the clause. *)
Theorem get_secret_propagates_when_ClientError_is_a_class
    (svc : Services) (name : string) (w : World) (c : pyclass) (e : exn) :
  lookup_name (globals w) "ClientError" = Some (ObjClass c) →
  secretsmanager svc (secret_log w) (secret_request name) = Raise e →
  fst (get_secret svc name w) = Raise e.
Proof.
  intros Hname Hstore.
  unfold get_secret, bind, try_except, client_get_secret_value, session_client; simpl.
  fold (secret_request name). rewrite Hstore. simpl. rewrite Hname.
  destruct (isinstance e c); reflexivity.
Qed.

Lemma get_secret_propagates_when_ClientError_is_a_class_witness :
  fst (get_secret svc_secret_denied "openai" world_with_ClientError) = Raise access_denied
  ∧ fst (get_secret svc_secret_unreachable "openai" world_with_ClientError)
    = Raise endpoint_unreachable.
Proof.
  split.
  - apply (get_secret_propagates_when_ClientError_is_a_class svc_secret_denied "openai"
             world_with_ClientError ClientError access_denied).
    + vm_compute. reflexivity.
    + reflexivity.
  - apply (get_secret_propagates_when_ClientError_is_a_class svc_secret_unreachable
             "openai" world_with_ClientError ClientError endpoint_unreachable).
    + vm_compute. reflexivity.
    + reflexivity.
Defined.

(** ** Cell 6: the client *)



(** X5. When the secret deserializes to something that is no mapping (a
    list, a string, a number, a boolean, null), the subscript
    [['api_key']] raises [TypeError] and cell 6 binds nothing. *)
Theorem cell_init_client_bundle_not_a_mapping
    (svc : Services) (w : World)
    (resp : gmap string pyval) (s : string) (b : pyval) :
  secretsmanager svc (secret_log w) (secret_request "openai") = Return resp →
  resp !! "SecretString" = Some (PStr s) →
  json_loads svc s = Return b →
  (∀ d, b ≠ PDict d) →
  (∃ msg, fst (cell_init_client svc w) = Raise (Exn TypeError msg None))
  ∧ globals (snd (cell_init_client svc w)) = globals w.
Proof.
  intros Hstore Hfield Hloads Hshape.
  rewrite cell_init_client_run.
  rewrite (get_secret_success svc "openai" w resp s Hstore Hfield), Hloads. simpl.
  destruct b as [| | | | |d]; simpl; try (split; [eexists; reflexivity|reflexivity]).
  destruct (Hshape d eq_refl).
Qed.

Lemma cell_init_client_bundle_not_a_mapping_witness :
  (∃ msg, fst (cell_init_client svc_secret_list world_after_imports)
          = Raise (Exn TypeError msg None))
  ∧ globals (snd (cell_init_client svc_secret_list world_after_imports))
    = globals world_after_imports.
Proof.
  apply (cell_init_client_bundle_not_a_mapping svc_secret_list world_after_imports
           {[ "Name" := PStr "openai"; "SecretString" := PStr list_text ]}
           list_text (PList [PStr "sk-test"])).
  - reflexivity.
  - vm_compute. reflexivity.
  - vm_compute. reflexivity.
  - intros d Heq. discriminate Heq.
Defined.



(** ** openai_gpt_help: the other paths *)

(** X7. In a kernel where the global [client] is not an OpenAI client
    (cell 6 has not run, or has failed), [openai_gpt_help] raises
    [NameError] or [AttributeError] and does nothing else: no request is
    sent, nothing is printed. *)
Theorem openai_gpt_help_without_client
    (svc : Services) (prompt : string) (w : World) :
  (∀ h, ¬ client_bound w h) →
  ∃ e, openai_gpt_help svc prompt w = (Raise e, w)
       ∧ (exc_class e = NameError ∨ exc_class e = AttributeError).
Proof.
  unfold client_bound. intros Hnone.
  unfold openai_gpt_help, bind, global_client.
  destruct (lookup_name (globals w) "client") as [[m|f|c|h|v]|];
    try (eexists; split; [reflexivity|simpl; auto]).
  destruct (Hnone h eq_refl).
Qed.

Lemma openai_gpt_help_without_client_witness :
  ∃ e, openai_gpt_help svc_hello "Say hello." world_after_imports
       = (Raise e, world_after_imports)
       ∧ (exc_class e = NameError ∨ exc_class e = AttributeError).
Proof.
  apply (openai_gpt_help_without_client svc_hello "Say hello." world_after_imports).
  intros h Hbound. vm_compute in Hbound. discriminate Hbound.
Defined.

(** X8. When the endpoint answers with no choice, the [IndexError] comes
    late: the request has been sent and the usage line has been printed
    before the first choice is read. *)
Theorem openai_gpt_help_no_choice_after_output
    (svc : Services) (prompt : string) (w : World) (h : OpenAI) (r : ChatCompletion) :
  client_bound w h →
  completions svc (chat_log w) (chat_request h prompt) = Return r →
  choices r = [] →
  openai_gpt_help svc prompt w =
    (Raise (Exn IndexError "list index out of range" None),
     log_stdout ("Tokens used: " +:+ str_usage (usage r))
       (log_chat (chat_request h prompt) w)).
Proof.
  intros Hclient Hendpoint Hchoices.
  rewrite (openai_gpt_help_run svc prompt w h Hclient), Hendpoint.
  unfold first_content. rewrite Hchoices. reflexivity.
Qed.

Lemma openai_gpt_help_no_choice_after_output_witness :
  openai_gpt_help svc_no_choice "Say hello." world_ready =
    (Raise (Exn IndexError "list index out of range" None),
     log_stdout ("Tokens used: " +:+ str_usage (Some (usage_of 5 0 5)))
       (log_chat (chat_request test_client "Say hello.") world_ready)).
Proof.
  apply (openai_gpt_help_no_choice_after_output svc_no_choice "Say hello." world_ready
           test_client {| choices := []; usage := Some (usage_of 5 0 5) |}).
  - vm_compute. reflexivity.
  - reflexivity.
  - reflexivity.
Defined.

(** X9. A response without usage record is no error: the function prints
    [Tokens used: None] and returns the content of the first choice. *)
Theorem openai_gpt_help_without_usage
    (svc : Services) (prompt : string) (w : World) (h : OpenAI)
    (r : ChatCompletion) (c : Choice) (rest : list Choice) :
  client_bound w h →
  completions svc (chat_log w) (chat_request h prompt) = Return r →
  usage r = None →
  choices r = c :: rest →
  fst (openai_gpt_help svc prompt w) = Return (content (message c))
  ∧ stdout (snd (openai_gpt_help svc prompt w)) = (stdout w ++ ["Tokens used: None"])%list.
Proof.
  intros Hclient Hendpoint Husage Hchoices.
  rewrite (openai_gpt_help_run svc prompt w h Hclient), Hendpoint.
  unfold first_content. rewrite Hchoices. simpl. rewrite Husage. auto.
Qed.

Lemma openai_gpt_help_without_usage_witness :
  fst (openai_gpt_help svc_no_usage "Say hello." world_ready) = Return (Some "Hello!")
  ∧ stdout (snd (openai_gpt_help svc_no_usage "Say hello." world_ready))
    = ["Tokens used: None"].
Proof.
  apply (openai_gpt_help_without_usage svc_no_usage "Say hello." world_ready test_client
           {| choices := [ {| message := {| content := Some "Hello!" |} |} ];
              usage := None |}
           {| message := {| content := Some "Hello!" |} |} []).
  - vm_compute. reflexivity.
  - reflexivity.
  - reflexivity.
  - reflexivity.
Defined.

(** X10. [openai_gpt_help] never contacts the secret store and never
    rebinds a global name, whatever the endpoint does: the credential is
    the one that the client already holds. *)
Theorem openai_gpt_help_keeps_secrets_and_globals
    (svc : Services) (prompt : string) (w : World) :
  secret_log (snd (openai_gpt_help svc prompt w)) = secret_log w
  ∧ globals (snd (openai_gpt_help svc prompt w)) = globals w.
Proof.
  rewrite openai_gpt_help_world.
  destruct (lookup_name (globals w) "client") as [[m|f|c|h|v]|]; auto.
  destruct (completions svc _ _); auto.
Qed.

(** ** Cell 6 followed by openai_gpt_help *)



(** X12. In a kernel with neither [client] nor [ClientError] bound, an
    error of the secret store makes cell 6 fail with the [NameError] of the
    [except] clause; a call of [openai_gpt_help] after that fails with the
    [NameError] of [client], and the endpoint is never contacted. *)
Theorem failed_init_then_gpt_help_sends_nothing
    (svc : Services) (prompt : string) (w : World) (e : exn) :
  lookup_name (globals w) "client" = None →
  lookup_name (globals w) "ClientError" = None →
  secretsmanager svc (secret_log w) (secret_request "openai") = Raise e →
  fst (cell_init_client svc w)
    = Raise (Exn NameError "name 'ClientError' is not defined" (Some e))
  ∧ fst (openai_gpt_help svc prompt (snd (cell_init_client svc w)))
    = Raise (Exn NameError "name 'client' is not defined" None)
  ∧ chat_log (snd (openai_gpt_help svc prompt (snd (cell_init_client svc w))))
    = chat_log w.
Proof.
  intros Hclient Hname Hstore.
  rewrite cell_init_client_run.
  rewrite (get_secret_failure_unbound svc "openai" w e Hstore Hname). simpl.
  rewrite (openai_gpt_help_no_client svc prompt
             (log_secret (secret_request "openai") w) Hclient). auto.
Qed.

Lemma failed_init_then_gpt_help_sends_nothing_witness :
  fst (cell_init_client svc_secret_denied world_after_imports)
    = Raise (Exn NameError "name 'ClientError' is not defined" (Some access_denied))
  ∧ fst (openai_gpt_help svc_secret_denied "Say hello."
           (snd (cell_init_client svc_secret_denied world_after_imports)))
    = Raise (Exn NameError "name 'client' is not defined" None)
  ∧ chat_log (snd (openai_gpt_help svc_secret_denied "Say hello."
                     (snd (cell_init_client svc_secret_denied world_after_imports))))
    = [].
Proof.
  apply (failed_init_then_gpt_help_sends_nothing svc_secret_denied "Say hello."
           world_after_imports access_denied).
  - vm_compute. reflexivity.
  - vm_compute. reflexivity.
  - reflexivity.
Defined.

(** ** Cell 13: gpt_result *)

(** X13. When the call of cell 13 returns, [gpt_result], and no other
    name, is rebound to the content of the first choice. *)
Theorem cell_gpt_result_binds_first_content
    (svc : Services) (data_prompt : string) (w : World) (h : OpenAI)
    (r : ChatCompletion) (c : Choice) (rest : list Choice) :
  client_bound w h →
  completions svc (chat_log w) (chat_request h data_prompt) = Return r →
  choices r = c :: rest →
  fst (cell_gpt_result svc data_prompt w) = Return tt
  ∧ globals (snd (cell_gpt_result svc data_prompt w))
    = <["gpt_result" := ObjVal (pyval_of_content (content (message c)))]> (globals w).
Proof.
  intros Hclient Hendpoint Hchoices.
  rewrite cell_gpt_result_run.
  rewrite (openai_gpt_help_run svc data_prompt w h Hclient), Hendpoint.
  unfold first_content. rewrite Hchoices. simpl. auto.
Qed.

Lemma cell_gpt_result_binds_first_content_witness :
  fst (cell_gpt_result svc_hello "Say hello." world_ready) = Return tt
  ∧ globals (snd (cell_gpt_result svc_hello "Say hello." world_ready))
    = <["gpt_result" := ObjVal (PStr "Hello!")]> (globals world_ready).
Proof.
  apply (cell_gpt_result_binds_first_content svc_hello "Say hello." world_ready
           test_client hello_response {| message := {| content := Some "Hello!" |} |} []).
  - vm_compute. reflexivity.
  - reflexivity.
  - reflexivity.
Defined.

(** X14. When the call of cell 13 raises, for whatever reason, the global
    namespace is as before: [gpt_result] keeps the value of an earlier run,
    or stays unbound. *)
Theorem cell_gpt_result_failure_keeps_globals
    (svc : Services) (data_prompt : string) (w : World) (e : exn) :
  fst (cell_gpt_result svc data_prompt w) = Raise e →
  globals (snd (cell_gpt_result svc data_prompt w)) = globals w.
Proof.
  rewrite cell_gpt_result_run.
  destruct (fst (openai_gpt_help svc data_prompt w)) as [text|e1].
  - simpl. discriminate.
  - intros _. simpl.
    apply openai_gpt_help_globals.
Qed.

Lemma cell_gpt_result_failure_keeps_globals_witness :
  globals (snd (cell_gpt_result svc_invalid_key "Say hello again."
                  (snd (cell_gpt_result svc_hello "Say hello." world_ready))))
    = globals (snd (cell_gpt_result svc_hello "Say hello." world_ready)).
Proof.
  apply (cell_gpt_result_failure_keeps_globals svc_invalid_key "Say hello again."
           (snd (cell_gpt_result svc_hello "Say hello." world_ready)) invalid_key).
  vm_compute. reflexivity.
Defined.

(** ** Sessions *)

Lemma run_session_cons (svc : Services) (c : cell) (cells : list cell) (w : World) :
  run_session svc (c :: cells) w = run_session svc cells (snd (run_cell svc c w)).
Proof. reflexivity. Qed.









(** What one cell does to the output and to the log of the endpoint:
    nothing, or one request, or one request and its usage line. *)
Lemma run_cell_output (svc : Services) (c : cell) (w : World) :
  (stdout (snd (run_cell svc c w)) = stdout w
   ∧ chat_log (snd (run_cell svc c w)) = chat_log w)
  ∨ (∃ h prompt,
       stdout (snd (run_cell svc c w)) = stdout w
       ∧ chat_log (snd (run_cell svc c w)) = (chat_log w ++ [chat_request h prompt])%list)
  ∨ (∃ h prompt u,
       stdout (snd (run_cell svc c w)) = (stdout w ++ [usage_line u])%list
       ∧ chat_log (snd (run_cell svc c w)) = (chat_log w ++ [chat_request h prompt])%list).
Proof.
  destruct c as [| | | |data_prompt]; simpl; try (left; split; reflexivity).
  - left. rewrite cell_init_client_run.
    destruct (fst (get_secret svc "openai" w)) as [bundle|e]; [|split; reflexivity].
    destruct (fst (getitem bundle "api_key" w)) as [key|e]; split; reflexivity.
  - assert (Hsame : stdout (snd (cell_gpt_result svc data_prompt w))
                    = stdout (snd (openai_gpt_help svc data_prompt w))
                    ∧ chat_log (snd (cell_gpt_result svc data_prompt w))
                      = chat_log (snd (openai_gpt_help svc data_prompt w))).
    { rewrite cell_gpt_result_run.
      destruct (fst (openai_gpt_help svc data_prompt w)); split; reflexivity. }
    destruct Hsame as [-> ->]. rewrite openai_gpt_help_world.
    destruct (lookup_name (globals w) "client") as [[m|f|c|h|v]|];
      try (left; split; reflexivity).
    destruct (completions svc _ _) as [r|e].
    + right. right. exists h, data_prompt, (usage r). split; reflexivity.
    + right. left. exists h, data_prompt. split; reflexivity.
Qed.


(** X18. Every request that a session sends to the completion endpoint
    names the model [gpt-4o] and temperature 0 and carries one single
    message, of role [user]: no cell accumulates a conversation. *)
Theorem session_chat_requests (svc : Services) (cells : list cell) (w : World) :
  Forall gpt_help_request (chat_log w) →
  Forall gpt_help_request (chat_log (run_session svc cells w)).
Proof.
  revert w. induction cells as [|c cells IH]; intros w Hlog; [exact Hlog|].
  rewrite run_session_cons. apply IH.
  assert (Hreq : ∀ h prompt, gpt_help_request (chat_request h prompt)).
  { intros h prompt. split; [reflexivity|]. split; [reflexivity|].
    exists prompt. reflexivity. }
  destruct (run_cell_output svc c w)
    as [[_ ->]|[(h & prompt & _ & ->)|(h & prompt & u & _ & ->)]].
  - exact Hlog.
  - apply Forall_app; split; [exact Hlog|].
    constructor; [apply Hreq|constructor].
  - apply Forall_app; split; [exact Hlog|].
    constructor; [apply Hreq|constructor].
Qed.

Lemma session_chat_requests_witness :
  Forall gpt_help_request (chat_log (run_session svc_hello full_session empty_world)).
Proof.
  apply (session_chat_requests svc_hello full_session empty_world).
  simpl. constructor.
Defined.





(** ** Where the key of a request comes from *)




